(** * Verification of go/systemd/systemd_linux.go

    The package probes the user-level systemd manager through [systemctl],
    looks for a socket handed down by socket activation and tells systemd
    that start-up has finished.  Everything it does is an effect on the
    process's surroundings, so the embedding threads an explicit [World]
    through a small state-and-panic monad: the world holds the process
    environment, the answers of the facilities outside the package
    (subprocesses, go-systemd) and the traces of what the code did
    (standard-error writes, spawned commands, notifications). *)

From Stdlib Require Import String Ascii ZArith List Lia.
From stdpp Require Import base option strings gmap list.

Local Open Scope string_scope.

(** ** Go values *)

(** The dynamic types an [error] interface value has in this package:
    [*exec.ExitError] (the command ran and exited non-zero),
    [*errors.errorString] (made by [errors.New]) and everything else
    ([*exec.Error] for a missing binary, [*os.PathError], I/O errors...).
    The nil interface is [None] of [option error]. *)
Inductive error : Type :=
  | ExitError (processState : string)
  | ErrorString (s : string)
  | OtherError (msg : string).

(** [err.Error()]. *)
Definition Error (e : error) : string :=
  match e with
  | ExitError st => st
  | ErrorString s => s
  | OtherError m => m
  end.

(** [errors.New]. *)
Definition errors_New (text : string) : error := ErrorString text.

(** The type assertion of [err] to a pointer to [exec.ExitError], in its
    comma-ok form: it never panics and is false on the nil interface. *)
Definition isExitErrorOf (err : option error) : bool :=
  match err with
  | Some (ExitError _) => true
  | _ => false
  end.

(** [err != nil]. *)
Definition notNil {A : Type} (x : option A) : bool :=
  match x with
  | Some _ => true
  | None => false
  end.

(** A listener wraps the inherited file descriptor it was built from. *)
Record Listener : Type := FileListener { listener_fd : Z }.

(** A value of interface type [net.Listener]: [None] is the nil interface. *)
Definition net_Listener : Type := option Listener.

(** [exec.Cmd], as far as this package uses it: the program and its
    arguments. *)
Record Cmd : Type := mkCmd { cmd_name : string; cmd_args : list string }.

#[global] Instance Cmd_eq_dec : EqDecision Cmd.
Proof. solve_decision. Defined.

Definition exec_Command (name : string) (args : list string) : Cmd :=
  mkCmd name args.

(** ** Strings *)

Definition byte (n : nat) : ascii := ascii_of_nat n.

Definition LF : string := String (byte 10) EmptyString.

(** The ASCII white space of [strings.TrimSpace]: tab, line feed, vertical
    tab, form feed, carriage return and space. *)
Definition asciiSpace (c : ascii) : bool :=
  let n := nat_of_ascii c in
  (Nat.leb 9 n && Nat.leb n 13) || Nat.eqb n 32.

(** UTF-8 encodings of the other runes of [unicode.IsSpace], two bytes long:
    U+0085 and U+00A0. *)
Definition space2 (c1 c2 : ascii) : bool :=
  Nat.eqb (nat_of_ascii c1) 194 &&
  (Nat.eqb (nat_of_ascii c2) 133 || Nat.eqb (nat_of_ascii c2) 160).

(** ... and three bytes long: U+1680, U+2000..U+200A, U+2028, U+2029,
    U+202F, U+205F and U+3000. *)
Definition space3 (c1 c2 c3 : ascii) : bool :=
  let n1 := nat_of_ascii c1 in
  let n2 := nat_of_ascii c2 in
  let n3 := nat_of_ascii c3 in
  (Nat.eqb n1 225 && Nat.eqb n2 154 && Nat.eqb n3 128) ||
  (Nat.eqb n1 226 && Nat.eqb n2 128 &&
     ((Nat.leb 128 n3 && Nat.leb n3 138) ||
      Nat.eqb n3 168 || Nat.eqb n3 169 || Nat.eqb n3 175)) ||
  (Nat.eqb n1 226 && Nat.eqb n2 129 && Nat.eqb n3 159) ||
  (Nat.eqb n1 227 && Nat.eqb n2 128 && Nat.eqb n3 128).

(** Drops leading white space.  [fwd] tells in which order the bytes of a
    multi-byte rune are met: first byte first when trimming from the left,
    last byte first when the string has been reversed. *)
Fixpoint trimLeading (fwd : bool) (s : string) : string :=
  match s with
  | EmptyString => EmptyString
  | String c1 r1 =>
      if asciiSpace c1 then trimLeading fwd r1
      else
        match r1 with
        | EmptyString => s
        | String c2 r2 =>
            if (if fwd then space2 c1 c2 else space2 c2 c1)
            then trimLeading fwd r2
            else
              match r2 with
              | EmptyString => s
              | String c3 r3 =>
                  if (if fwd then space3 c1 c2 c3 else space3 c3 c2 c1)
                  then trimLeading fwd r3
                  else s
              end
        end
  end.

Fixpoint revString (acc s : string) : string :=
  match s with
  | EmptyString => acc
  | String c r => revString (String c acc) r
  end.

(** [strings.TrimSpace]: leading white space goes first, then trailing. *)
Definition strings_TrimSpace (s : string) : string :=
  revString EmptyString
    (trimLeading false (revString EmptyString (trimLeading true s))).

(** [fmt.Sprintf] for the verb this package uses, [%s], whose operand is
    given already rendered (an error by its [Error()]).  Every call in the
    package passes as many operands as the format has verbs. *)
Fixpoint fmt_Sprintf (format : string) (args : list string) : string :=
  match format with
  | EmptyString => EmptyString
  | String c rest =>
      match rest with
      | String c' rest' =>
          if Ascii.eqb c "%" && Ascii.eqb c' "s" then
            match args with
            | a :: args' => a +:+ fmt_Sprintf rest' args'
            | [] => "%!s(MISSING)" +:+ fmt_Sprintf rest' []
            end
          else String c (fmt_Sprintf rest args)
      | EmptyString => String c EmptyString
      end
  end.

(** ** The world *)

Record World : Type := mkWorld {
  (** the process environment, [os.Environ] *)
  environ : gmap string string;
  (** what running a command yields: captured standard output and error *)
  commands : Cmd -> string * option error;
  (** whether /run/systemd/system exists *)
  booted : bool;
  (** what descriptor resolution yields *)
  inherited : list net_Listener * option error;
  (** what sending on the notification socket yields *)
  notifyReply : bool * option error;
  (** writes to [os.Stderr], oldest first *)
  stderr : list string;
  (** subprocesses run, oldest first *)
  spawned : list Cmd;
  (** payloads handed to the notification channel, oldest first *)
  notified : list string
}.

Definition withEnviron (e : gmap string string) (w : World) : World :=
  mkWorld e (commands w) (booted w) (inherited w) (notifyReply w)
          (stderr w) (spawned w) (notified w).

Definition withCommands (f : Cmd -> string * option error) (w : World) : World :=
  mkWorld (environ w) f (booted w) (inherited w) (notifyReply w)
          (stderr w) (spawned w) (notified w).

Definition withStderr (l : list string) (w : World) : World :=
  mkWorld (environ w) (commands w) (booted w) (inherited w) (notifyReply w)
          l (spawned w) (notified w).

Definition withSpawned (l : list Cmd) (w : World) : World :=
  mkWorld (environ w) (commands w) (booted w) (inherited w) (notifyReply w)
          (stderr w) l (notified w).

Definition withNotified (l : list string) (w : World) : World :=
  mkWorld (environ w) (commands w) (booted w) (inherited w) (notifyReply w)
          (stderr w) (spawned w) l.

(** ** The monad: state passing, with panics *)

Inductive outcome (A : Type) : Type :=
  | Returns (a : A)
  | Panics (msg : string).
Arguments Returns {A} a.
Arguments Panics {A} msg.

Definition M (A : Type) : Type := World -> outcome A * World.

Definition ret {A : Type} (a : A) : M A := fun w => (Returns a, w).

Definition bind {A B : Type} (m : M A) (k : A -> M B) : M B :=
  fun w =>
    match m w with
    | (Returns a, w') => k a w'
    | (Panics msg, w') => (Panics msg, w')
    end.

Notation "'let*' x := m 'in' k" := (bind m (fun x => k))
  (at level 10, x name, m at level 100, k at level 200, only parsing).
Notation "'let*' ' pat := m 'in' k" :=
  (bind m (fun x => match x with pat => k end))
  (at level 10, pat pattern, m at level 100, k at level 200, only parsing).

Definition valueOf {A : Type} (r : outcome A * World) : outcome A := fst r.
Definition worldOf {A : Type} (r : outcome A * World) : World := snd r.

(** ** The facilities outside the package *)

(** [os.Getenv]: the empty string when the variable is unset. *)
Definition os_Getenv (key : string) : M string :=
  fun w => (Returns (default "" (environ w !! key)), w).

(** [os.Stderr.WriteString]; its results are ignored throughout. *)
Definition os_Stderr_WriteString (s : string) : M unit :=
  fun w => (Returns tt, withStderr (stderr w ++ [s]) w).

(** [Output] of [exec.Cmd]: runs the command and hands back what it wrote
    to standard output, and the error. *)
Definition Output (c : Cmd) : M (string * option error) :=
  fun w => (Returns (commands w c), withSpawned (spawned w ++ [c]) w).

(** Indexing a slice panics out of range. *)
Definition index {A : Type} (s : list A) (i : nat) : M A :=
  fun w =>
    match s !! i with
    | Some a => (Returns a, w)
    | None => (Panics "index out of range", w)
    end.

(** Modelled from the spec: [util.IsRunningSystemd] of go-systemd, which is
    not among the sources.  "A lightweight, side-effect-free check of
    platform markers (no subprocess spawn)"; "no error path". *)
Definition sdUtil_IsRunningSystemd : M bool :=
  fun w => (Returns (booted w), w).

(** Modelled from the spec: [activation.Listeners] of go-systemd, which is
    not among the sources.  It "queries the inherited-descriptor set" and
    hands back the listeners and an error; the environment markers are
    cleared only when [unsetEnv] is set. *)
Definition sdActivation_Listeners (unsetEnv : bool)
  : M (list net_Listener * option error) :=
  fun w =>
    (Returns (inherited w),
     if unsetEnv
     then withEnviron (delete "LISTEN_PID" (delete "LISTEN_FDS" (environ w))) w
     else w).

(** Modelled from the spec: [daemon.SdNotify] of go-systemd, which is not
    among the sources.  "A side-channel write of the literal payload" to
    the notification socket, which hands back whether it was sent and an
    error; the environment marker is cleared only when [unsetEnv] is set. *)
Definition sdDaemon_SdNotify (unsetEnv : bool) (state : string)
  : M (bool * option error) :=
  fun w =>
    let w' := withNotified (notified w ++ [state]) w in
    (Returns (notifyReply w),
     if unsetEnv
     then withEnviron (delete "NOTIFY_SOCKET" (environ w')) w'
     else w').

(** ** The package *)

Definition statusCmd : Cmd :=
  exec_Command "systemctl" ["--user"; "is-system-running"].

Definition dbusStatusCmd : Cmd :=
  exec_Command "systemctl" ["--user"; "is-active"; "dbus.service"].

Definition IsUserSystemdRunning : M bool :=
  let c := statusCmd in
  let* '(output, err) := Output c in
  let isExitError := isExitErrorOf err in
  if notNil err && negb isExitError then
    let* _ := os_Stderr_WriteString
           (fmt_Sprintf
              ("Failed to run systemctl: check user manager status: %s" +:+ LF)
              [from_option Error "%!s(<nil>)" err]) in
    ret false
  else
    let outputStr := strings_TrimSpace output in
    if String.eqb outputStr "running" then
      ret true
    else if String.eqb outputStr "degraded" then
      let* '(dbusStatusOutput, err) := Output dbusStatusCmd in
      let isExitError := isExitErrorOf err in
      if notNil err && negb isExitError then
        let* _ := os_Stderr_WriteString
               (fmt_Sprintf
                  ("Failed to run systemctl: check dbus activity: %s" +:+ LF)
                  [from_option Error "%!s(<nil>)" err]) in
        ret false
      else
        let dbusStatusOutputStr := strings_TrimSpace dbusStatusOutput in
        ret (String.eqb dbusStatusOutputStr "active")
    else if String.eqb outputStr "" then
      let* _ := os_Stderr_WriteString
             (fmt_Sprintf ("Failed to reach user-level systemd daemon." +:+ LF) []) in
      ret false
    else
      let* _ := os_Stderr_WriteString
             (fmt_Sprintf ("Systemd reported an unexpected status: %s" +:+ LF)
                          [outputStr]) in
      ret false.

(** Go's [&&] evaluates its right operand only when the left one is true. *)
Definition IsRunningSystemd : M bool :=
  let* a := sdUtil_IsRunningSystemd in
  if a then IsUserSystemdRunning else ret false.

Definition IsSocketActivated : M bool :=
  let* v := os_Getenv "LISTEN_FDS" in
  ret (negb (String.eqb v "")).

Definition GetListenerFromEnvironment : M (net_Listener * option error) :=
  let* '(listeners, err) := sdActivation_Listeners false in
  if notNil err then
    ret (None, err)
  else if Nat.ltb 1 (length listeners) then
    ret (None, Some (errors_New "Too many listeners passed from systemd."))
  else if Nat.eqb (length listeners) 1 then
    let* l := index listeners 0 in
    ret (l, None)
  else
    ret (None, None).

Definition NotifyStartupFinished : M unit :=
  let* _ := sdDaemon_SdNotify false "READY=1" in
  ret tt.

(** ** Vocabulary of the statements *)

(** The test the package makes after each [Output]: an error that is not a
    non-zero exit status. *)
Definition failedToRun (err : option error) : bool :=
  notNil err && negb (isExitErrorOf err).

(** The world once [c] has been run. *)
Definition afterRun (c : Cmd) (w : World) : World :=
  withSpawned (spawned w ++ [c]) w.

(** The world once [s] has been written to standard error. *)
Definition afterWrite (s : string) (w : World) : World :=
  withStderr (stderr w ++ [s]) w.

(** The world in which running [c] yields [r]. *)
Definition answering (c : Cmd) (r : string * option error) (w : World) : World :=
  withCommands (fun c' => if decide (c' = c) then r else commands w c') w.

(** The error the package makes up for more than one inherited socket. *)
Definition ConfigurationError : error :=
  errors_New "Too many listeners passed from systemd.".

(** Sample worlds, on which the statements below are run: the status query
    answers [status], the dbus query [probe]; nothing has happened yet. *)
Definition sampleWorld (status probe : string * option error)
    (env : gmap string string) (inh : list net_Listener * option error)
    (sys : bool) : World :=
  mkWorld env
          (fun c => if decide (c = statusCmd) then status else probe)
          sys inh (false, Some (OtherError "no notification socket"))
          [] [] [].

Definition exit3 : option error := Some (ExitError "exit status 3").

Definition notFound : option error :=
  Some (OtherError "exec: systemctl: executable file not found in $PATH").

Definition degradedWorld (probe : string * option error) : World :=
  sampleWorld ("degraded" +:+ LF, Some (ExitError "exit status 1")) probe
              ∅ ([], None) true.

Definition statusWorld (status : string * option error) : World :=
  sampleWorld status ("active" +:+ LF, None) ∅ ([], None) true.

Definition activatedWorld (v : string) (inh : list net_Listener) : World :=
  sampleWorld ("running" +:+ LF, None) ("active" +:+ LF, None)
              {[ "LISTEN_FDS" := v ]} (inh, None) true.

(** Strings made of ASCII white space only. *)
Fixpoint allSpace (s : string) : bool :=
  match s with
  | EmptyString => true
  | String c r => asciiSpace c && allSpace r
  end.

(** ** The string helpers on what [systemctl] prints *)

Example TrimSpace_line : strings_TrimSpace ("degraded" +:+ LF) = "degraded".
Proof. reflexivity. Qed.

Example TrimSpace_inner :
  strings_TrimSpace (" " +:+ LF +:+ "not active " +:+ LF) = "not active".
Proof. reflexivity. Qed.

(** A no-break space, U+00A0, before and an en quad, U+2000, after. *)
Example TrimSpace_unicode :
  strings_TrimSpace
    (String (byte 194) (String (byte 160)
       ("active" +:+
        String (byte 226) (String (byte 128) (String (byte 128) "")))))
  = "active".
Proof. reflexivity. Qed.

Example TrimSpace_blank : strings_TrimSpace (" " +:+ LF) = "".
Proof. reflexivity. Qed.

Example Sprintf_status :
  fmt_Sprintf ("Systemd reported an unexpected status: %s" +:+ LF) ["starting"]
  = "Systemd reported an unexpected status: starting" +:+ LF.
Proof. reflexivity. Qed.

(** ** The user-level probe, branch by branch *)

Section UserProbe.

Variable w : World.
Variables (output : string) (err : option error).
Hypothesis Hstatus : commands w statusCmd = (output, err).

Lemma user_failed :
  failedToRun err = true ->
  IsUserSystemdRunning w =
    (Returns false,
     afterWrite ("Failed to run systemctl: check user manager status: "
                 +:+ from_option Error "%!s(<nil>)" err +:+ LF)
                (afterRun statusCmd w)).
Proof.
  intros Hf. unfold IsUserSystemdRunning, bind, Output.
  rewrite Hstatus. unfold failedToRun in Hf. rewrite Hf. reflexivity.
Qed.

Lemma user_running :
  failedToRun err = false ->
  strings_TrimSpace output = "running" ->
  IsUserSystemdRunning w = (Returns true, afterRun statusCmd w).
Proof.
  intros Hf Ht. unfold IsUserSystemdRunning, bind, Output.
  rewrite Hstatus. unfold failedToRun in Hf. rewrite Hf, Ht. reflexivity.
Qed.

Lemma user_empty :
  failedToRun err = false ->
  strings_TrimSpace output = "" ->
  IsUserSystemdRunning w =
    (Returns false,
     afterWrite ("Failed to reach user-level systemd daemon." +:+ LF)
                (afterRun statusCmd w)).
Proof.
  intros Hf Ht. unfold IsUserSystemdRunning, bind, Output.
  rewrite Hstatus. unfold failedToRun in Hf. rewrite Hf, Ht. reflexivity.
Qed.

Lemma user_unexpected :
  failedToRun err = false ->
  strings_TrimSpace output <> "running" ->
  strings_TrimSpace output <> "degraded" ->
  strings_TrimSpace output <> "" ->
  IsUserSystemdRunning w =
    (Returns false,
     afterWrite ("Systemd reported an unexpected status: "
                 +:+ strings_TrimSpace output +:+ LF)
                (afterRun statusCmd w)).
Proof.
  intros Hf Hr Hd He. unfold IsUserSystemdRunning, bind, Output.
  rewrite Hstatus. unfold failedToRun in Hf. rewrite Hf.
  apply String.eqb_neq in Hr, Hd, He. cbv zeta. rewrite Hr, Hd, He.
  reflexivity.
Qed.

Variables (dbusStatusOutput : string) (dbusErr : option error).
Hypothesis Hdbus : commands w dbusStatusCmd = (dbusStatusOutput, dbusErr).

Lemma user_degraded_failed :
  failedToRun err = false ->
  strings_TrimSpace output = "degraded" ->
  failedToRun dbusErr = true ->
  IsUserSystemdRunning w =
    (Returns false,
     afterWrite ("Failed to run systemctl: check dbus activity: "
                 +:+ from_option Error "%!s(<nil>)" dbusErr +:+ LF)
                (afterRun dbusStatusCmd (afterRun statusCmd w))).
Proof.
  intros Hf Ht Hf'. unfold IsUserSystemdRunning, bind, Output.
  rewrite Hstatus. unfold failedToRun in Hf, Hf'. rewrite Hf, Ht.
  cbn. rewrite Hdbus, Hf'. reflexivity.
Qed.

Lemma user_degraded_probed :
  failedToRun err = false ->
  strings_TrimSpace output = "degraded" ->
  failedToRun dbusErr = false ->
  IsUserSystemdRunning w =
    (Returns (String.eqb (strings_TrimSpace dbusStatusOutput) "active"),
     afterRun dbusStatusCmd (afterRun statusCmd w)).
Proof.
  intros Hf Ht Hf'. unfold IsUserSystemdRunning, bind, Output.
  rewrite Hstatus. unfold failedToRun in Hf, Hf'. rewrite Hf, Ht.
  cbn. rewrite Hdbus, Hf'. reflexivity.
Qed.

End UserProbe.

(** The probe always returns: no branch of it panics. *)
Lemma user_returns (w : World) :
  exists (b : bool) (w' : World), IsUserSystemdRunning w = (Returns b, w').
Proof.
  destruct (commands w statusCmd) as [output err] eqn:Hs.
  destruct (commands w dbusStatusCmd) as [dout derr] eqn:Hd.
  destruct (failedToRun err) eqn:Hf.
  { eexists _, _. eapply user_failed; eauto. }
  destruct (String.eqb_spec (strings_TrimSpace output) "running") as [Hr|Hr].
  { eexists _, _. eapply user_running; eauto. }
  destruct (String.eqb_spec (strings_TrimSpace output) "degraded") as [Hg|Hg].
  { destruct (failedToRun derr) eqn:Hf'.
    - eexists _, _. eapply user_degraded_failed; eauto.
    - eexists _, _. eapply user_degraded_probed; eauto. }
  destruct (String.eqb_spec (strings_TrimSpace output) "") as [He|He].
  { eexists _, _. eapply user_empty; eauto. }
  eexists _, _. eapply user_unexpected; eauto.
Qed.

Lemma status_is_not_dbus : dbusStatusCmd <> statusCmd.
Proof. discriminate. Qed.

Lemma IsSocketActivated_eq (w : World) :
  IsSocketActivated w =
    (Returns (negb (String.eqb (default "" (environ w !! "LISTEN_FDS")) "")), w).
Proof. reflexivity. Qed.

Lemma GetListener_world (w : World) :
  worldOf (GetListenerFromEnvironment w) = w.
Proof.
  unfold GetListenerFromEnvironment, bind, sdActivation_Listeners, worldOf.
  destruct (inherited w) as [ls e].
  destruct (notNil e); [reflexivity|].
  destruct (Nat.ltb 1 (length ls)); [reflexivity|].
  destruct ls as [|l [|l' ls]]; reflexivity.
Qed.

(** ** The claims *)

(** C1. Whatever socket activation hands down, [GetListenerFromEnvironment]
    answers (nil, nil) for no listener, the listener itself with a nil
    error for exactly one, and for two or more no listener at all but an
    error, which is the configuration error when descriptor resolution
    itself succeeded. *)
Theorem GetListenerFromEnvironment_policy
    (w : World) (listeners : list net_Listener) (err : option error) :
  inherited w = (listeners, err) ->
  (err = None -> listeners = [] ->
     GetListenerFromEnvironment w = (Returns (None, None), w)) /\
  (forall l, err = None -> listeners = [l] ->
     GetListenerFromEnvironment w = (Returns (l, None), w)) /\
  (2 <= length listeners ->
     exists e, GetListenerFromEnvironment w = (Returns (None, Some e), w) /\
               (err = None -> e = ConfigurationError)).
Proof.
  intros Hin. unfold GetListenerFromEnvironment, bind, sdActivation_Listeners.
  rewrite Hin. repeat split.
  - intros -> ->. reflexivity.
  - intros l -> ->. reflexivity.
  - intros Hlen. destruct err as [e|]; cbn.
    + exists e. split; [reflexivity | discriminate].
    + exists ConfigurationError.
      destruct listeners as [|l [|l' ls]]; cbn in Hlen; try lia.
      split; reflexivity.
Qed.

Lemma GetListenerFromEnvironment_policy_witness :
  GetListenerFromEnvironment (activatedWorld "1" [Some (FileListener 3)]) =
    (Returns (Some (FileListener 3), None),
     activatedWorld "1" [Some (FileListener 3)]) /\
  exists e,
    GetListenerFromEnvironment
      (activatedWorld "2" [Some (FileListener 3); Some (FileListener 4)]) =
      (Returns (None, Some e),
       activatedWorld "2" [Some (FileListener 3); Some (FileListener 4)]) /\
    (@None error = None -> e = ConfigurationError).
Proof.
  split.
  - exact (proj1 (proj2 (GetListenerFromEnvironment_policy
             (activatedWorld "1" [Some (FileListener 3)])
             [Some (FileListener 3)] None eq_refl))
           (Some (FileListener 3)) eq_refl eq_refl).
  - apply (proj2 (proj2 (GetListenerFromEnvironment_policy
             (activatedWorld "2" [Some (FileListener 3); Some (FileListener 4)])
             [Some (FileListener 3); Some (FileListener 4)] None eq_refl))).
    simpl. lia.
Defined.

(** C2. In every run whose status query has the trimmed output "degraded",
    the answer of [IsUserSystemdRunning] is that of the dbus probe: true
    when the status was read, the probe ran and its trimmed output is
    "active"; false for any other probe output; false when the probe failed
    to run for a reason other than a non-zero exit status. *)
Theorem degraded_follows_dbus
    (w : World) (output : string) (err : option error)
    (dbusStatusOutput : string) (dbusErr : option error) :
  commands w statusCmd = (output, err) ->
  strings_TrimSpace output = "degraded" ->
  commands w dbusStatusCmd = (dbusStatusOutput, dbusErr) ->
  (failedToRun err = false ->
   failedToRun dbusErr = false ->
   strings_TrimSpace dbusStatusOutput = "active" ->
     valueOf (IsUserSystemdRunning w) = Returns true) /\
  (strings_TrimSpace dbusStatusOutput <> "active" ->
     valueOf (IsUserSystemdRunning w) = Returns false) /\
  (failedToRun dbusErr = true ->
     valueOf (IsUserSystemdRunning w) = Returns false).
Proof.
  intros Hs Ht Hd. split; [|split].
  - intros Hf Hf' Ha.
    rewrite (user_degraded_probed w _ _ Hs _ _ Hd Hf Ht Hf'), Ha. reflexivity.
  - intros Ha. destruct (failedToRun err) eqn:Hf.
    { rewrite (user_failed w _ _ Hs Hf). reflexivity. }
    destruct (failedToRun dbusErr) eqn:Hf'.
    { rewrite (user_degraded_failed w _ _ Hs _ _ Hd Hf Ht Hf'). reflexivity. }
    rewrite (user_degraded_probed w _ _ Hs _ _ Hd Hf Ht Hf').
    apply String.eqb_neq in Ha. cbn. rewrite Ha. reflexivity.
  - intros Hf'. destruct (failedToRun err) eqn:Hf.
    { rewrite (user_failed w _ _ Hs Hf). reflexivity. }
    rewrite (user_degraded_failed w _ _ Hs _ _ Hd Hf Ht Hf'). reflexivity.
Qed.

Lemma degraded_follows_dbus_witness :
  valueOf (IsUserSystemdRunning (degradedWorld ("active" +:+ LF, None)))
    = Returns true /\
  valueOf (IsUserSystemdRunning (degradedWorld ("inactive" +:+ LF, exit3)))
    = Returns false /\
  valueOf (IsUserSystemdRunning (degradedWorld ("active" +:+ LF, notFound)))
    = Returns false.
Proof.
  split; [|split].
  - apply (proj1 (degraded_follows_dbus
             (degradedWorld ("active" +:+ LF, None))
             ("degraded" +:+ LF) (Some (ExitError "exit status 1"))
             ("active" +:+ LF) None
             eq_refl eq_refl eq_refl)); reflexivity.
  - apply (proj1 (proj2 (degraded_follows_dbus
             (degradedWorld ("inactive" +:+ LF, exit3))
             ("degraded" +:+ LF) (Some (ExitError "exit status 1"))
             ("inactive" +:+ LF) exit3
             eq_refl eq_refl eq_refl))).
    vm_compute. discriminate.
  - apply (proj2 (proj2 (degraded_follows_dbus
             (degradedWorld ("active" +:+ LF, notFound))
             ("degraded" +:+ LF) (Some (ExitError "exit status 1"))
             ("active" +:+ LF) notFound
             eq_refl eq_refl eq_refl))); reflexivity.
Defined.

(** C3. [IsUserSystemdRunning] answers by the trimmed output of the status
    query.  A status that is not empty, not "running" and not "degraded"
    gives false and one diagnostic on standard error, which names the
    status when the status was read.  "running", when read, gives true and
    no diagnostic.  The empty status gives false and one diagnostic on
    standard error, which says that the daemon was not reached when the
    status was read. *)
Theorem status_classification
    (w : World) (output : string) (err : option error) :
  commands w statusCmd = (output, err) ->
  (strings_TrimSpace output <> "" ->
   strings_TrimSpace output <> "running" ->
   strings_TrimSpace output <> "degraded" ->
     valueOf (IsUserSystemdRunning w) = Returns false /\
     exists diagnostic : string,
       stderr (worldOf (IsUserSystemdRunning w)) =
         (stderr w ++ [diagnostic])%list /\
       (failedToRun err = false ->
          diagnostic = "Systemd reported an unexpected status: "
                       +:+ strings_TrimSpace output +:+ LF)) /\
  (failedToRun err = false ->
   strings_TrimSpace output = "running" ->
     valueOf (IsUserSystemdRunning w) = Returns true /\
     stderr (worldOf (IsUserSystemdRunning w)) = stderr w) /\
  (strings_TrimSpace output = "" ->
     valueOf (IsUserSystemdRunning w) = Returns false /\
     exists diagnostic : string,
       stderr (worldOf (IsUserSystemdRunning w)) =
         (stderr w ++ [diagnostic])%list /\
       (failedToRun err = false ->
          diagnostic = "Failed to reach user-level systemd daemon." +:+ LF)).
Proof.
  intros Hs. split; [|split].
  - intros He Hr Hd. destruct (failedToRun err) eqn:Hf.
    + rewrite (user_failed w _ _ Hs Hf). split; [reflexivity|].
      eexists. split; [reflexivity | discriminate].
    + rewrite (user_unexpected w _ _ Hs Hf Hr Hd He). split; [reflexivity|].
      eexists. split; reflexivity.
  - intros Hf Hr. rewrite (user_running w _ _ Hs Hf Hr). split; reflexivity.
  - intros He. destruct (failedToRun err) eqn:Hf.
    + rewrite (user_failed w _ _ Hs Hf). split; [reflexivity|].
      eexists. split; [reflexivity | discriminate].
    + rewrite (user_empty w _ _ Hs Hf He). split; [reflexivity|].
      eexists. split; reflexivity.
Qed.

Lemma status_classification_witness :
  (valueOf (IsUserSystemdRunning (statusWorld ("starting" +:+ LF, exit3)))
     = Returns false /\
   exists diagnostic : string,
     stderr (worldOf (IsUserSystemdRunning
                        (statusWorld ("starting" +:+ LF, exit3))))
       = (stderr (statusWorld ("starting" +:+ LF, exit3))
          ++ [diagnostic])%list /\
     (failedToRun exit3 = false ->
        diagnostic = "Systemd reported an unexpected status: "
                     +:+ strings_TrimSpace ("starting" +:+ LF) +:+ LF)) /\
  (valueOf (IsUserSystemdRunning (statusWorld ("running" +:+ LF, None)))
     = Returns true /\
   stderr (worldOf (IsUserSystemdRunning (statusWorld ("running" +:+ LF, None))))
     = stderr (statusWorld ("running" +:+ LF, None))).
Proof.
  split.
  - apply (proj1 (status_classification
             (statusWorld ("starting" +:+ LF, exit3))
             ("starting" +:+ LF) exit3 eq_refl));
      vm_compute; discriminate.
  - apply (proj1 (proj2 (status_classification
             (statusWorld ("running" +:+ LF, None))
             ("running" +:+ LF) None eq_refl)));
      reflexivity.
Defined.

(** C4. [IsRunningSystemd] answers the conjunction of the system-level
    check and the user-level probe, and when the system-level check says
    no it leaves the world as it found it: no subprocess is run and nothing
    is written. *)
Theorem IsRunningSystemd_short_circuit (w : World) :
  (exists a b : bool,
     valueOf (sdUtil_IsRunningSystemd w) = Returns a /\
     valueOf (IsUserSystemdRunning w) = Returns b /\
     valueOf (IsRunningSystemd w) = Returns (a && b)) /\
  (valueOf (sdUtil_IsRunningSystemd w) = Returns false ->
     IsRunningSystemd w = (Returns false, w) /\
     spawned (worldOf (IsRunningSystemd w)) = spawned w) /\
  (valueOf (sdUtil_IsRunningSystemd w) = Returns true ->
     IsRunningSystemd w = IsUserSystemdRunning w).
Proof.
  split; [|split].
  - destruct (user_returns w) as (b & w' & Hb).
    exists (booted w), b. split; [reflexivity|].
    split; [now rewrite Hb|].
    unfold IsRunningSystemd, bind, sdUtil_IsRunningSystemd.
    destruct (booted w); [now rewrite Hb | reflexivity].
  - intros H. injection H as Hb.
    unfold IsRunningSystemd, bind, sdUtil_IsRunningSystemd.
    rewrite Hb. split; reflexivity.
  - intros H. injection H as Hb.
    unfold IsRunningSystemd, bind, sdUtil_IsRunningSystemd.
    rewrite Hb. reflexivity.
Qed.

Lemma IsRunningSystemd_short_circuit_witness :
  IsRunningSystemd
    (sampleWorld ("running" +:+ LF, None) ("active" +:+ LF, None)
                 ∅ ([], None) false) =
    (Returns false,
     sampleWorld ("running" +:+ LF, None) ("active" +:+ LF, None)
                 ∅ ([], None) false).
Proof.
  apply (proj1 (proj2 (IsRunningSystemd_short_circuit
           (sampleWorld ("running" +:+ LF, None) ("active" +:+ LF, None)
                        ∅ ([], None) false)))).
  reflexivity.
Defined.

(** C5. [IsSocketActivated] answers true exactly when LISTEN_FDS is set to
    a non-empty value; it always answers, changes nothing, and answers the
    same after [GetListenerFromEnvironment] has run as before it. *)
Theorem IsSocketActivated_iff_marker (w : World) :
  (valueOf (IsSocketActivated w) = Returns true <->
     exists v, environ w !! "LISTEN_FDS" = Some v /\ v <> "") /\
  (exists b : bool, IsSocketActivated w = (Returns b, w)) /\
  valueOf (IsSocketActivated (worldOf (GetListenerFromEnvironment w))) =
    valueOf (IsSocketActivated w) /\
  GetListenerFromEnvironment (worldOf (IsSocketActivated w)) =
    GetListenerFromEnvironment w.
Proof.
  rewrite GetListener_world, !IsSocketActivated_eq. cbn.
  split; [|split; [|split]]; [|eauto|reflexivity|reflexivity].
  split.
  - intros [= Hv]. destruct (environ w !! "LISTEN_FDS") as [v|]; cbn in Hv.
    + exists v. split; [reflexivity|].
      apply String.eqb_neq. now destruct (String.eqb v "").
    + discriminate.
  - intros (v & -> & Hv). cbn. apply String.eqb_neq in Hv. now rewrite Hv.
Qed.

(** C6. Neither [GetListenerFromEnvironment] nor [NotifyStartupFinished]
    touches the environment; so with LISTEN_FDS set to a non-empty value,
    "3" say, and one inherited listener, the listener is handed back and
    [IsSocketActivated] still answers true afterwards, also once start-up
    has been notified. *)
Theorem markers_survive (w : World) :
  environ (worldOf (GetListenerFromEnvironment w)) = environ w /\
  environ (worldOf (NotifyStartupFinished w)) = environ w /\
  (forall (v : string) (l : net_Listener),
     environ w !! "LISTEN_FDS" = Some v ->
     v <> "" ->
     inherited w = ([l], None) ->
       valueOf (GetListenerFromEnvironment w) = Returns (l, None) /\
       valueOf (IsSocketActivated (worldOf (GetListenerFromEnvironment w)))
         = Returns true /\
       valueOf (IsSocketActivated
                  (worldOf (NotifyStartupFinished
                              (worldOf (GetListenerFromEnvironment w)))))
         = Returns true).
Proof.
  rewrite GetListener_world. split; [reflexivity|]. split; [reflexivity|].
  intros v l Henv Hv Hin. rewrite !IsSocketActivated_eq.
  unfold GetListenerFromEnvironment, bind, sdActivation_Listeners.
  rewrite Hin. cbn. rewrite Henv. cbn.
  apply String.eqb_neq in Hv. rewrite Hv. auto.
Qed.

Lemma markers_survive_witness :
  valueOf (GetListenerFromEnvironment
             (activatedWorld "3" [Some (FileListener 3)]))
    = Returns (Some (FileListener 3), None) /\
  valueOf (IsSocketActivated
             (worldOf (GetListenerFromEnvironment
                         (activatedWorld "3" [Some (FileListener 3)]))))
    = Returns true /\
  valueOf (IsSocketActivated
             (worldOf (NotifyStartupFinished
                (worldOf (GetListenerFromEnvironment
                            (activatedWorld "3" [Some (FileListener 3)]))))))
    = Returns true.
Proof.
  apply (proj2 (proj2 (markers_survive
           (activatedWorld "3" [Some (FileListener 3)])))
         "3" (Some (FileListener 3)));
    [reflexivity | discriminate | reflexivity].
Defined.

(** C7. [NotifyStartupFinished] always returns, with nothing to hand back,
    whatever the notification socket answered: it sends the payload
    READY=1 once, and a failed send leaves no trace, neither on standard
    error nor in the environment nor as a subprocess. *)
Theorem NotifyStartupFinished_silent (w : World) :
  exists w' : World,
    NotifyStartupFinished w = (Returns tt, w') /\
    notified w' = (notified w ++ ["READY=1"])%list /\
    stderr w' = stderr w /\
    environ w' = environ w /\
    spawned w' = spawned w.
Proof.
  eexists. split; [reflexivity|]. repeat split.
Qed.

(** C8. When the status query fails to run for a reason other than a
    non-zero exit status, [IsUserSystemdRunning] writes a diagnostic that
    carries the error and answers false, having run nothing else; it
    returns in every case; and a non-zero exit status is no such failure:
    the answer and the diagnostics are those of the same output with a nil
    error. *)
Theorem status_query_failure
    (w : World) (output : string) (err : option error) :
  commands w statusCmd = (output, err) ->
  (forall e : error, err = Some e -> isExitErrorOf err = false ->
     IsUserSystemdRunning w =
       (Returns false,
        afterWrite ("Failed to run systemctl: check user manager status: "
                    +:+ Error e +:+ LF)
                   (afterRun statusCmd w))) /\
  (exists (b : bool) (w' : World), IsUserSystemdRunning w = (Returns b, w')) /\
  (isExitErrorOf err = true ->
     failedToRun err = false /\
     valueOf (IsUserSystemdRunning w) =
       valueOf (IsUserSystemdRunning (answering statusCmd (output, None) w)) /\
     stderr (worldOf (IsUserSystemdRunning w)) =
       stderr (worldOf (IsUserSystemdRunning
                          (answering statusCmd (output, None) w)))).
Proof.
  intros Hs. split; [|split].
  - intros e -> He.
    rewrite (user_failed w _ _ Hs); [reflexivity|].
    unfold failedToRun. rewrite He. reflexivity.
  - apply user_returns.
  - intros He.
    assert (Hf : failedToRun err = false)
      by (unfold failedToRun; rewrite He; apply andb_false_r).
    split; [exact Hf|].
    set (w0 := answering statusCmd (output, None) w).
    assert (Hs0 : commands w0 statusCmd = (output, None)).
    { unfold w0, answering. cbn. now rewrite decide_True. }
    destruct (commands w dbusStatusCmd) as [dout derr] eqn:Hd.
    assert (Hd0 : commands w0 dbusStatusCmd = (dout, derr)).
    { unfold w0, answering. cbn.
      rewrite decide_False by exact status_is_not_dbus. exact Hd. }
    assert (Hf0 : failedToRun None = false) by reflexivity.
    destruct (String.eqb_spec (strings_TrimSpace output) "running") as [Hr|Hr].
    { rewrite (user_running w _ _ Hs Hf Hr), (user_running w0 _ _ Hs0 Hf0 Hr).
      split; reflexivity. }
    destruct (String.eqb_spec (strings_TrimSpace output) "degraded") as [Hg|Hg].
    { destruct (failedToRun derr) eqn:Hf'.
      - rewrite (user_degraded_failed w _ _ Hs _ _ Hd Hf Hg Hf'),
                (user_degraded_failed w0 _ _ Hs0 _ _ Hd0 Hf0 Hg Hf').
        split; reflexivity.
      - rewrite (user_degraded_probed w _ _ Hs _ _ Hd Hf Hg Hf'),
                (user_degraded_probed w0 _ _ Hs0 _ _ Hd0 Hf0 Hg Hf').
        split; reflexivity. }
    destruct (String.eqb_spec (strings_TrimSpace output) "") as [Hn|Hn].
    { rewrite (user_empty w _ _ Hs Hf Hn), (user_empty w0 _ _ Hs0 Hf0 Hn).
      split; reflexivity. }
    rewrite (user_unexpected w _ _ Hs Hf Hr Hg Hn),
            (user_unexpected w0 _ _ Hs0 Hf0 Hr Hg Hn).
    split; reflexivity.
Qed.

Lemma status_query_failure_witness :
  IsUserSystemdRunning (statusWorld ("", notFound)) =
    (Returns false,
     afterWrite ("Failed to run systemctl: check user manager status: "
                 +:+ "exec: systemctl: executable file not found in $PATH"
                 +:+ LF)
                (afterRun statusCmd (statusWorld ("", notFound)))) /\
  valueOf (IsUserSystemdRunning (statusWorld ("running" +:+ LF, exit3))) =
    valueOf (IsUserSystemdRunning
               (answering statusCmd ("running" +:+ LF, None)
                          (statusWorld ("running" +:+ LF, exit3)))).
Proof.
  split.
  - apply (proj1 (status_query_failure
             (statusWorld ("", notFound)) "" notFound eq_refl)
           (OtherError "exec: systemctl: executable file not found in $PATH"));
      reflexivity.
  - apply (proj2 (proj2 (status_query_failure
             (statusWorld ("running" +:+ LF, exit3))
             ("running" +:+ LF) exit3 eq_refl))).
    reflexivity.
Defined.

(** C9. [IsSocketActivated] does not look into the value of LISTEN_FDS:
    any non-empty value makes it answer true, be it a count or not. *)
Theorem IsSocketActivated_unvalidated (w : World) (v : string) :
  environ w !! "LISTEN_FDS" = Some v ->
  v <> "" ->
  valueOf (IsSocketActivated w) = Returns true.
Proof.
  intros Hv Hne. rewrite IsSocketActivated_eq. cbn. rewrite Hv. cbn.
  apply String.eqb_neq in Hne. now rewrite Hne.
Qed.

Lemma IsSocketActivated_unvalidated_witness :
  valueOf (IsSocketActivated (activatedWorld "abc" [])) = Returns true /\
  valueOf (IsSocketActivated (activatedWorld "0" [])) = Returns true.
Proof.
  split.
  - apply (IsSocketActivated_unvalidated (activatedWorld "abc" []) "abc");
      [reflexivity | discriminate].
  - apply (IsSocketActivated_unvalidated (activatedWorld "0" []) "0");
      [reflexivity | discriminate].
Defined.

(** C10. [IsUserSystemdRunning] runs the dbus query, after the status
    query, exactly when the status query ran and its trimmed output is
    "degraded"; in every other case the status query is the only
    subprocess it runs. *)
Theorem dbus_probe_only_when_degraded
    (w : World) (output : string) (err : option error) :
  commands w statusCmd = (output, err) ->
  (failedToRun err = false /\ strings_TrimSpace output = "degraded" ->
     spawned (worldOf (IsUserSystemdRunning w)) =
       (spawned w ++ [statusCmd; dbusStatusCmd])%list) /\
  (~ (failedToRun err = false /\ strings_TrimSpace output = "degraded") ->
     spawned (worldOf (IsUserSystemdRunning w)) =
       (spawned w ++ [statusCmd])%list).
Proof.
  intros Hs.
  destruct (commands w dbusStatusCmd) as [dout derr] eqn:Hd.
  split.
  - intros [Hf Hg]. destruct (failedToRun derr) eqn:Hf'.
    + rewrite (user_degraded_failed w _ _ Hs _ _ Hd Hf Hg Hf'). cbn.
      now rewrite <- app_assoc.
    + rewrite (user_degraded_probed w _ _ Hs _ _ Hd Hf Hg Hf'). cbn.
      now rewrite <- app_assoc.
  - intros Hn. destruct (failedToRun err) eqn:Hf.
    { rewrite (user_failed w _ _ Hs Hf). reflexivity. }
    destruct (String.eqb_spec (strings_TrimSpace output) "running") as [Hr|Hr].
    { rewrite (user_running w _ _ Hs Hf Hr). reflexivity. }
    destruct (String.eqb_spec (strings_TrimSpace output) "degraded") as [Hg|Hg].
    { exfalso. apply Hn. split; [reflexivity | exact Hg]. }
    destruct (String.eqb_spec (strings_TrimSpace output) "") as [He|He].
    { rewrite (user_empty w _ _ Hs Hf He). reflexivity. }
    rewrite (user_unexpected w _ _ Hs Hf Hr Hg He). reflexivity.
Qed.

Lemma dbus_probe_only_when_degraded_witness :
  spawned (worldOf (IsUserSystemdRunning (degradedWorld ("active" +:+ LF, None))))
    = (spawned (degradedWorld ("active" +:+ LF, None))
       ++ [statusCmd; dbusStatusCmd])%list /\
  spawned (worldOf (IsUserSystemdRunning (statusWorld ("running" +:+ LF, None))))
    = (spawned (statusWorld ("running" +:+ LF, None)) ++ [statusCmd])%list.
Proof.
  split.
  - apply (proj1 (dbus_probe_only_when_degraded
             (degradedWorld ("active" +:+ LF, None))
             ("degraded" +:+ LF) (Some (ExitError "exit status 1")) eq_refl)).
    split; reflexivity.
  - apply (proj2 (dbus_probe_only_when_degraded
             (statusWorld ("running" +:+ LF, None))
             ("running" +:+ LF) None eq_refl)).
    intros [_ H]. vm_compute in H. discriminate.
Defined.

(** ** White space around what [systemctl] prints *)

Lemma asciiSpace_not_space2 (c1 c : ascii) :
  asciiSpace c = true -> space2 c1 c = false.
Proof.
  unfold asciiSpace, space2. cbv zeta. intros H.
  apply orb_true_iff in H.
  rewrite andb_true_iff, !Nat.leb_le, Nat.eqb_eq in H.
  apply andb_false_iff. right. apply orb_false_iff.
  split; apply Nat.eqb_neq; lia.
Qed.

Lemma asciiSpace_not_space3_mid (c1 c c3 : ascii) :
  asciiSpace c = true -> space3 c1 c c3 = false.
Proof.
  unfold asciiSpace, space3. cbv zeta. intros H.
  apply orb_true_iff in H.
  rewrite andb_true_iff, !Nat.leb_le, Nat.eqb_eq in H.
  assert (E1 : Nat.eqb (nat_of_ascii c) 154 = false) by (apply Nat.eqb_neq; lia).
  assert (E2 : Nat.eqb (nat_of_ascii c) 128 = false) by (apply Nat.eqb_neq; lia).
  assert (E3 : Nat.eqb (nat_of_ascii c) 129 = false) by (apply Nat.eqb_neq; lia).
  rewrite E1, E2, E3, !andb_false_r. reflexivity.
Qed.

Lemma asciiSpace_not_space3_last (c1 c2 c : ascii) :
  asciiSpace c = true -> space3 c1 c2 c = false.
Proof.
  unfold asciiSpace, space3. cbv zeta. intros H.
  apply orb_true_iff in H.
  rewrite andb_true_iff, !Nat.leb_le, Nat.eqb_eq in H.
  assert (E1 : Nat.eqb (nat_of_ascii c) 128 = false) by (apply Nat.eqb_neq; lia).
  assert (E2 : Nat.leb 128 (nat_of_ascii c) = false) by (apply Nat.leb_gt; lia).
  assert (E3 : Nat.eqb (nat_of_ascii c) 168 = false) by (apply Nat.eqb_neq; lia).
  assert (E4 : Nat.eqb (nat_of_ascii c) 169 = false) by (apply Nat.eqb_neq; lia).
  assert (E5 : Nat.eqb (nat_of_ascii c) 175 = false) by (apply Nat.eqb_neq; lia).
  assert (E6 : Nat.eqb (nat_of_ascii c) 159 = false) by (apply Nat.eqb_neq; lia).
  rewrite E1, E2, E3, E4, E5, E6. cbn. rewrite !andb_false_r. reflexivity.
Qed.

Lemma append_cons (c : ascii) (a b : string) :
  String c a +:+ b = String c (a +:+ b).
Proof. reflexivity. Qed.

Lemma append_nil (b : string) : "" +:+ b = b.
Proof. reflexivity. Qed.

Lemma append_assoc (a b c : string) : (a +:+ b) +:+ c = a +:+ (b +:+ c).
Proof.
  induction a as [|x a IH]; [reflexivity|].
  rewrite !append_cons. now rewrite IH.
Qed.

(** Leading white space is dropped whole, in either direction. *)
Lemma trimLeading_blank (fwd : bool) (pre x : string) :
  allSpace pre = true ->
  trimLeading fwd (pre +:+ x) = trimLeading fwd x.
Proof.
  induction pre as [|c pre IH]; intros H; [reflexivity|].
  cbn [allSpace] in H. apply andb_true_iff in H as [Hc Hpre].
  rewrite append_cons. cbn [trimLeading]. rewrite Hc. auto.
Qed.

Lemma trimLeading_all_blank (fwd : bool) (s : string) :
  allSpace s = true -> trimLeading fwd s = "".
Proof.
  induction s as [|c s IH]; intros H; [reflexivity|].
  cbn [allSpace] in H. apply andb_true_iff in H as [Hc Hs].
  cbn [trimLeading]. rewrite Hc. auto.
Qed.

(** White space appended to a string is out of reach of the trim from the
    left, unless the string is white space altogether. *)
Lemma trimLeading_app_blank (post : string) :
  allSpace post = true ->
  forall (n : nat) (s : string),
    String.length s <= n ->
    (trimLeading true s = "" /\ trimLeading true (s +:+ post) = "") \/
    trimLeading true (s +:+ post) = trimLeading true s +:+ post.
Proof.
  intros Hpost. induction n as [|n IH]; intros s Hlen.
  { destruct s; [|cbn in Hlen; lia]. left. split; [reflexivity|].
    now apply trimLeading_all_blank. }
  destruct s as [|c1 r1].
  { left. split; [reflexivity|]. now apply trimLeading_all_blank. }
  cbn in Hlen. rewrite append_cons. cbn [trimLeading].
  destruct (asciiSpace c1) eqn:H1.
  { apply IH. lia. }
  destruct r1 as [|c2 r2].
  { right. rewrite append_nil.
    destruct post as [|p1 post']; [reflexivity|].
    cbn [allSpace] in Hpost. apply andb_true_iff in Hpost as [Hp1 Hpost'].
    rewrite (asciiSpace_not_space2 c1 p1 Hp1).
    destruct post' as [|p2 post'']; [reflexivity|].
    now rewrite (asciiSpace_not_space3_mid c1 p1 p2 Hp1). }
  cbn in Hlen. rewrite append_cons.
  destruct (space2 c1 c2) eqn:H2.
  { apply IH. lia. }
  destruct r2 as [|c3 r3].
  { right. rewrite append_nil.
    destruct post as [|p1 post']; [reflexivity|].
    cbn [allSpace] in Hpost. apply andb_true_iff in Hpost as [Hp1 Hpost'].
    now rewrite (asciiSpace_not_space3_last c1 c2 p1 Hp1). }
  cbn in Hlen. rewrite append_cons.
  destruct (space3 c1 c2 c3) eqn:H3.
  { apply IH. lia. }
  right. reflexivity.
Qed.

Lemma revString_app (a b acc : string) :
  revString acc (a +:+ b) = revString (revString acc a) b.
Proof.
  revert acc. induction a as [|c a IH]; intros acc; [reflexivity|].
  rewrite append_cons. cbn [revString]. apply IH.
Qed.

Lemma revString_acc (s acc : string) :
  revString acc s = revString "" s +:+ acc.
Proof.
  revert acc. induction s as [|c s IH]; intros acc; [reflexivity|].
  cbn [revString]. rewrite (IH (String c acc)), (IH (String c "")).
  rewrite append_assoc. reflexivity.
Qed.

Lemma allSpace_revString (s acc : string) :
  allSpace s = true -> allSpace acc = true ->
  allSpace (revString acc s) = true.
Proof.
  revert acc. induction s as [|c s IH]; intros acc Hs Hacc; [exact Hacc|].
  cbn [allSpace] in Hs. apply andb_true_iff in Hs as [Hc Hs].
  cbn [revString]. apply IH; [exact Hs|]. cbn [allSpace]. now rewrite Hc, Hacc.
Qed.

(** ASCII white space before and after a text does not change what
    [strings.TrimSpace] makes of it. *)
Lemma TrimSpace_padded (pre s post : string) :
  allSpace pre = true -> allSpace post = true ->
  strings_TrimSpace (pre +:+ s +:+ post) = strings_TrimSpace s.
Proof.
  intros Hpre Hpost. unfold strings_TrimSpace.
  rewrite (trimLeading_blank true pre _ Hpre).
  destruct (trimLeading_app_blank post Hpost (String.length s) s (le_n _))
    as [[E1 E2]|E].
  - now rewrite E1, E2.
  - rewrite E, revString_app, (revString_acc post).
    rewrite trimLeading_blank; [reflexivity|].
    now apply allSpace_revString.
Qed.

(** ** The probes as a whole *)

(** Splits a goal about [IsUserSystemdRunning w] along the branches of the
    function and rewrites the run away in each. *)
Ltac probe_cases w output err dout derr Hs Hd :=
  let Hf := fresh "Hf" in
  let Hf' := fresh "Hf'" in
  let Hr := fresh "Hr" in
  let Hg := fresh "Hg" in
  let He := fresh "He" in
  destruct (failedToRun err) eqn:Hf;
  [ rewrite (user_failed w _ _ Hs Hf)
  | destruct (String.eqb_spec (strings_TrimSpace output) "running") as [Hr|Hr];
    [ rewrite (user_running w _ _ Hs Hf Hr)
    | destruct (String.eqb_spec (strings_TrimSpace output) "degraded")
        as [Hg|Hg];
      [ destruct (failedToRun derr) eqn:Hf';
        [ rewrite (user_degraded_failed w _ _ Hs _ _ Hd Hf Hg Hf')
        | rewrite (user_degraded_probed w _ _ Hs _ _ Hd Hf Hg Hf') ]
      | destruct (String.eqb_spec (strings_TrimSpace output) "") as [He|He];
        [ rewrite (user_empty w _ _ Hs Hf He)
        | rewrite (user_unexpected w _ _ Hs Hf Hr Hg He) ] ] ] ].

Lemma snoc_not_self {A : Type} (l : list A) (x : A) : (l ++ [x])%list <> l.
Proof.
  intros H. apply (f_equal length) in H.
  rewrite length_app in H. cbn in H. lia.
Qed.

Lemma user_true_iff
    (w : World) (output : string) (err : option error)
    (dout : string) (derr : option error) :
  commands w statusCmd = (output, err) ->
  commands w dbusStatusCmd = (dout, derr) ->
  (valueOf (IsUserSystemdRunning w) = Returns true <->
   failedToRun err = false /\
   (strings_TrimSpace output = "running" \/
    (strings_TrimSpace output = "degraded" /\
     failedToRun derr = false /\
     strings_TrimSpace dout = "active"))).
Proof.
  intros Hs Hd. probe_cases w output err dout derr Hs Hd; cbn [valueOf fst].
  - split; [discriminate | intros [H _]; discriminate].
  - split; [auto | reflexivity].
  - split; [discriminate|].
    intros [_ [H | (_ & H & _)]]; [congruence | discriminate].
  - split.
    + intros [= H]. apply String.eqb_eq in H. auto.
    + intros [_ [H | (_ & _ & H)]]; [congruence|].
      rewrite H. reflexivity.
  - split; [discriminate|].
    intros [_ [H | (H & _)]]; congruence.
  - split; [discriminate|].
    intros [_ [H | (H & _)]]; congruence.
Qed.

(** What the user-level probe makes of two runs that differ only in the
    raw outputs, not in their trimmed text. *)
Lemma user_same_trim
    (w1 w2 : World) (o1 o2 : string) (err : option error)
    (d1 d2 : string) (derr : option error) :
  commands w1 statusCmd = (o1, err) ->
  commands w2 statusCmd = (o2, err) ->
  commands w1 dbusStatusCmd = (d1, derr) ->
  commands w2 dbusStatusCmd = (d2, derr) ->
  strings_TrimSpace o1 = strings_TrimSpace o2 ->
  strings_TrimSpace d1 = strings_TrimSpace d2 ->
  stderr w1 = stderr w2 ->
  valueOf (IsUserSystemdRunning w1) = valueOf (IsUserSystemdRunning w2) /\
  stderr (worldOf (IsUserSystemdRunning w1)) =
    stderr (worldOf (IsUserSystemdRunning w2)).
Proof.
  intros Hs1 Hs2 Hd1 Hd2 Eo Ed Ew.
  probe_cases w1 o1 err d1 derr Hs1 Hd1.
  - rewrite (user_failed w2 _ _ Hs2 Hf). cbn. now rewrite Ew.
  - rewrite Eo in Hr. rewrite (user_running w2 _ _ Hs2 Hf Hr).
    cbn. now rewrite Ew.
  - rewrite Eo in Hg.
    rewrite (user_degraded_failed w2 _ _ Hs2 _ _ Hd2 Hf Hg Hf').
    cbn. now rewrite Ew.
  - rewrite Eo in Hg.
    rewrite (user_degraded_probed w2 _ _ Hs2 _ _ Hd2 Hf Hg Hf').
    cbn. now rewrite Ew, Ed.
  - rewrite Eo in He. rewrite (user_empty w2 _ _ Hs2 Hf He).
    cbn. now rewrite Ew.
  - rewrite Eo in Hr, Hg, He.
    rewrite (user_unexpected w2 _ _ Hs2 Hf Hr Hg He).
    cbn. now rewrite Ew, Eo.
Qed.

Ltac one_run :=
  exists [statusCmd];
  split; [reflexivity|]; split; [cbn; lia | repeat constructor].
Ltac two_runs :=
  exists [statusCmd; dbusStatusCmd];
  split; [now rewrite <- app_assoc|];
  split; [cbn; lia | repeat constructor].
Ltac one_line := eexists [_]; split; [reflexivity | cbn; lia].
Ltac no_line := exists []; split; [now rewrite app_nil_r | cbn; lia].

(** What a run of the user-level probe may change. *)
Lemma user_footprint (w : World) :
  environ (worldOf (IsUserSystemdRunning w)) = environ w /\
  notified (worldOf (IsUserSystemdRunning w)) = notified w /\
  (exists cs : list Cmd,
     spawned (worldOf (IsUserSystemdRunning w)) = (spawned w ++ cs)%list /\
     length cs <= 2 /\
     Forall (fun c => cmd_name c = "systemctl" /\
                      cmd_args c !! 0 = Some "--user") cs) /\
  (exists ds : list string,
     stderr (worldOf (IsUserSystemdRunning w)) = (stderr w ++ ds)%list /\
     length ds <= 1).
Proof.
  destruct (commands w statusCmd) as [output err] eqn:Hs.
  destruct (commands w dbusStatusCmd) as [dout derr] eqn:Hd.
  probe_cases w output err dout derr Hs Hd;
    cbn [worldOf snd afterWrite afterRun withStderr withSpawned
         environ notified spawned stderr];
    (split; [reflexivity|]); (split; [reflexivity|]); split.
  - one_run.
  - one_line.
  - one_run.
  - no_line.
  - two_runs.
  - one_line.
  - two_runs.
  - no_line.
  - one_run.
  - one_line.
  - one_run.
  - one_line.
Qed.

(** ** Further properties of the package *)

(** X1. [IsUserSystemdRunning] answers true in exactly two situations: the
    status query ran and printed "running", or it ran and printed
    "degraded" and the dbus query ran and printed "active". *)
Theorem IsUserSystemdRunning_true_iff
    (w : World) (output : string) (err : option error)
    (dout : string) (derr : option error) :
  commands w statusCmd = (output, err) ->
  commands w dbusStatusCmd = (dout, derr) ->
  (valueOf (IsUserSystemdRunning w) = Returns true <->
   failedToRun err = false /\
   (strings_TrimSpace output = "running" \/
    (strings_TrimSpace output = "degraded" /\
     failedToRun derr = false /\
     strings_TrimSpace dout = "active"))).
Proof. exact (user_true_iff w output err dout derr). Qed.

Lemma IsUserSystemdRunning_true_iff_witness :
  valueOf (IsUserSystemdRunning (degradedWorld ("active" +:+ LF, exit3)))
    = Returns true /\
  ~ valueOf (IsUserSystemdRunning (statusWorld ("running" +:+ LF, notFound)))
      = Returns true.
Proof.
  split.
  - apply (proj2 (IsUserSystemdRunning_true_iff
             (degradedWorld ("active" +:+ LF, exit3))
             ("degraded" +:+ LF) (Some (ExitError "exit status 1"))
             ("active" +:+ LF) exit3 eq_refl eq_refl)).
    split; [reflexivity|]. right. repeat split.
  - intros H.
    apply (proj1 (IsUserSystemdRunning_true_iff
             (statusWorld ("running" +:+ LF, notFound))
             ("running" +:+ LF) notFound
             ("active" +:+ LF) None eq_refl eq_refl)) in H.
    destruct H as [H _]. vm_compute in H. discriminate.
Defined.

(** X2. [IsUserSystemdRunning] writes at most one diagnostic per run and
    none when it answers true; it answers false without any diagnostic in
    exactly one situation: the status is "degraded" and the dbus query ran
    and printed something other than "active". *)
Theorem IsUserSystemdRunning_diagnostics
    (w : World) (output : string) (err : option error)
    (dout : string) (derr : option error) :
  commands w statusCmd = (output, err) ->
  commands w dbusStatusCmd = (dout, derr) ->
  (stderr (worldOf (IsUserSystemdRunning w)) = stderr w \/
   exists d, stderr (worldOf (IsUserSystemdRunning w)) =
               (stderr w ++ [d])%list) /\
  (valueOf (IsUserSystemdRunning w) = Returns true ->
     stderr (worldOf (IsUserSystemdRunning w)) = stderr w) /\
  (valueOf (IsUserSystemdRunning w) = Returns false /\
   stderr (worldOf (IsUserSystemdRunning w)) = stderr w <->
     failedToRun err = false /\
     strings_TrimSpace output = "degraded" /\
     failedToRun derr = false /\
     strings_TrimSpace dout <> "active").
Proof.
  intros Hs Hd.
  probe_cases w output err dout derr Hs Hd;
    cbn [valueOf worldOf fst snd afterWrite afterRun withStderr withSpawned
         stderr].
  - split; [right; eauto|]. split; [discriminate|].
    split; [intros [_ H]; now apply snoc_not_self in H
           | intros [H _]; discriminate].
  - split; [left; reflexivity|]. split; [reflexivity|].
    split; [intros [H _]; discriminate | intros (_ & H & _); congruence].
  - split; [right; eauto|]. split; [discriminate|].
    split; [intros [_ H]; now apply snoc_not_self in H
           | intros (_ & _ & H & _); discriminate].
  - split; [left; reflexivity|]. split; [reflexivity|].
    split.
    + intros [[= H] _]. apply String.eqb_neq in H. auto.
    + intros (_ & _ & _ & H). apply String.eqb_neq in H.
      rewrite H. auto.
  - split; [right; eauto|]. split; [discriminate|].
    split; [intros [_ H]; now apply snoc_not_self in H
           | intros (_ & H & _); congruence].
  - split; [right; eauto|]. split; [discriminate|].
    split; [intros [_ H]; now apply snoc_not_self in H
           | intros (_ & H & _); congruence].
Qed.

Lemma IsUserSystemdRunning_diagnostics_witness :
  valueOf (IsUserSystemdRunning (degradedWorld ("inactive" +:+ LF, exit3)))
    = Returns false /\
  stderr (worldOf (IsUserSystemdRunning
                     (degradedWorld ("inactive" +:+ LF, exit3))))
    = stderr (degradedWorld ("inactive" +:+ LF, exit3)).
Proof.
  apply (proj2 (proj2 (proj2 (IsUserSystemdRunning_diagnostics
           (degradedWorld ("inactive" +:+ LF, exit3))
           ("degraded" +:+ LF) (Some (ExitError "exit status 1"))
           ("inactive" +:+ LF) exit3 eq_refl eq_refl)))).
  repeat split. vm_compute. discriminate.
Defined.

(** X3. Whatever it answers, [IsRunningSystemd] leaves the environment and
    the notification channel alone, runs at most two subprocesses, each of
    them [systemctl --user ...], and writes at most one diagnostic. *)
Theorem IsRunningSystemd_footprint (w : World) :
  environ (worldOf (IsRunningSystemd w)) = environ w /\
  notified (worldOf (IsRunningSystemd w)) = notified w /\
  (exists cs : list Cmd,
     spawned (worldOf (IsRunningSystemd w)) = (spawned w ++ cs)%list /\
     length cs <= 2 /\
     Forall (fun c => cmd_name c = "systemctl" /\
                      cmd_args c !! 0 = Some "--user") cs) /\
  (exists ds : list string,
     stderr (worldOf (IsRunningSystemd w)) = (stderr w ++ ds)%list /\
     length ds <= 1).
Proof.
  unfold IsRunningSystemd, bind, sdUtil_IsRunningSystemd.
  destruct (booted w); [apply user_footprint|].
  cbn. split; [reflexivity|]. split; [reflexivity|]. split.
  - exists []. split; [now rewrite app_nil_r|].
    split; [cbn; lia | constructor].
  - no_line.
Qed.

(** X4. [IsRunningSystemd] answers true exactly when the system-level
    check says yes and the user-level manager is "running", or "degraded"
    with an "active" dbus. *)
Theorem IsRunningSystemd_true_iff
    (w : World) (output : string) (err : option error)
    (dout : string) (derr : option error) :
  commands w statusCmd = (output, err) ->
  commands w dbusStatusCmd = (dout, derr) ->
  (valueOf (IsRunningSystemd w) = Returns true <->
   booted w = true /\
   failedToRun err = false /\
   (strings_TrimSpace output = "running" \/
    (strings_TrimSpace output = "degraded" /\
     failedToRun derr = false /\
     strings_TrimSpace dout = "active"))).
Proof.
  intros Hs Hd. unfold IsRunningSystemd, bind, sdUtil_IsRunningSystemd.
  destruct (booted w).
  - rewrite (user_true_iff w output err dout derr Hs Hd). tauto.
  - cbn. split; [discriminate | intros [H _]; discriminate].
Qed.

Lemma IsRunningSystemd_true_iff_witness :
  valueOf (IsRunningSystemd (statusWorld (" running" +:+ LF, None)))
    = Returns true.
Proof.
  apply (proj2 (IsRunningSystemd_true_iff
           (statusWorld (" running" +:+ LF, None))
           (" running" +:+ LF) None ("active" +:+ LF) None
           eq_refl eq_refl)).
  split; [reflexivity|]. split; [reflexivity|]. left. reflexivity.
Defined.


(** X6. An error of descriptor resolution is handed on as it is, with no
    listener, however many listeners came with it. *)
Theorem GetListenerFromEnvironment_propagates
    (w : World) (listeners : list net_Listener) (e : error) :
  inherited w = (listeners, Some e) ->
  GetListenerFromEnvironment w = (Returns (None, Some e), w).
Proof.
  intros Hin. unfold GetListenerFromEnvironment, bind, sdActivation_Listeners.
  rewrite Hin. reflexivity.
Qed.

Lemma GetListenerFromEnvironment_propagates_witness :
  GetListenerFromEnvironment
    (sampleWorld ("", None) ("", None) ∅
       ([Some (FileListener 3)], Some (OtherError "too many open files"))
       true) =
  (Returns (None, Some (OtherError "too many open files")),
   sampleWorld ("", None) ("", None) ∅
     ([Some (FileListener 3)], Some (OtherError "too many open files"))
     true).
Proof.
  apply (GetListenerFromEnvironment_propagates _ [Some (FileListener 3)]).
  reflexivity.
Defined.

(** X7. [GetListenerFromEnvironment] hands back a listener exactly when
    descriptor resolution succeeded with that listener and no other. *)
Theorem GetListenerFromEnvironment_listener_iff
    (w : World) (l : Listener) :
  (exists e, valueOf (GetListenerFromEnvironment w) = Returns (Some l, e)) <->
  inherited w = ([Some l], None).
Proof.
  unfold GetListenerFromEnvironment, bind, sdActivation_Listeners.
  destruct (inherited w) as [ls err].
  destruct err as [e|]; cbn.
  { split; [intros [e' H]; discriminate | discriminate]. }
  destruct ls as [|x [|x' ls]]; cbn.
  - split; [intros [e' H]; discriminate | discriminate].
  - split.
    + intros [e' [= -> _]]. reflexivity.
    + intros [= ->]. eauto.
  - split; [intros [e' H]; discriminate | discriminate].
Qed.

(** X8. The answer (nil, nil), on which the caller opens a socket of its
    own, comes exactly when descriptor resolution succeeded with no
    listener, or with a single one that is nil. *)
Theorem GetListenerFromEnvironment_nil_nil_iff (w : World) :
  valueOf (GetListenerFromEnvironment w) = Returns (None, None) <->
  inherited w = ([], None) \/ inherited w = ([None], None).
Proof.
  unfold GetListenerFromEnvironment, bind, sdActivation_Listeners.
  destruct (inherited w) as [ls err].
  destruct err as [e|]; cbn.
  { split; [discriminate | intros [H|H]; discriminate]. }
  destruct ls as [|x [|x' ls]]; cbn.
  - split; auto.
  - split.
    + intros [= ->]. auto.
    + intros [H|[= ->]]; [discriminate | reflexivity].
  - split; [discriminate | intros [H|H]; discriminate].
Qed.

(** X9. ASCII white space before and after what [systemctl] prints, the
    line feed that ends its output for one, changes neither the answer of
    [IsUserSystemdRunning] nor its diagnostics; this holds for the status
    query and for the dbus query. *)
Theorem IsUserSystemdRunning_ignores_padding
    (w : World) (pre post : string) (output : string) (err : option error)
    (dout : string) (derr : option error) :
  allSpace pre = true ->
  allSpace post = true ->
  commands w statusCmd = (output, err) ->
  commands w dbusStatusCmd = (dout, derr) ->
  (valueOf (IsUserSystemdRunning
              (answering statusCmd (pre +:+ output +:+ post, err) w))
     = valueOf (IsUserSystemdRunning w) /\
   stderr (worldOf (IsUserSystemdRunning
                      (answering statusCmd (pre +:+ output +:+ post, err) w)))
     = stderr (worldOf (IsUserSystemdRunning w))) /\
  (valueOf (IsUserSystemdRunning
              (answering dbusStatusCmd (pre +:+ dout +:+ post, derr) w))
     = valueOf (IsUserSystemdRunning w) /\
   stderr (worldOf (IsUserSystemdRunning
                      (answering dbusStatusCmd (pre +:+ dout +:+ post, derr) w)))
     = stderr (worldOf (IsUserSystemdRunning w))).
Proof.
  intros Hpre Hpost Hs Hd. split.
  - apply (user_same_trim _ w (pre +:+ output +:+ post) output err dout dout derr).
    + unfold answering. cbn. now rewrite decide_True.
    + exact Hs.
    + unfold answering. cbn.
      now rewrite decide_False by exact status_is_not_dbus.
    + exact Hd.
    + now apply TrimSpace_padded.
    + reflexivity.
    + reflexivity.
  - apply (user_same_trim _ w output output err (pre +:+ dout +:+ post) dout derr).
    + unfold answering. cbn.
      rewrite decide_False; [exact Hs|].
      intros H. symmetry in H. now apply status_is_not_dbus.
    + exact Hs.
    + unfold answering. cbn. now rewrite decide_True.
    + exact Hd.
    + reflexivity.
    + now apply TrimSpace_padded.
    + reflexivity.
Qed.

Lemma IsUserSystemdRunning_ignores_padding_witness :
  valueOf (IsUserSystemdRunning
             (answering statusCmd
                (" " +:+ "running" +:+ (String (byte 13) LF), None)
                (statusWorld ("running", None))))
    = valueOf (IsUserSystemdRunning (statusWorld ("running", None))).
Proof.
  apply (proj1 (IsUserSystemdRunning_ignores_padding
           (statusWorld ("running", None)) " " (String (byte 13) LF)
           "running" None ("active" +:+ LF) None
           eq_refl eq_refl eq_refl eq_refl)).
Defined.
